(** * Radiobackend: the users CRUD service of [main.py]

    A shallow embedding of the five request handlers of [main.py] and of
    the two collaborators they talk to: the asyncpg connection pool and the
    [users] table behind it.  The handlers are written over an abstract
    connection, so that what they do when the database raises can be stated
    for every database; the SQL statements they send are then given their
    meaning on a model of the [users] table.

    The handlers run between [startup] and [shutdown], on an open pool that
    has a connection to lend.  [get_db_connection] is called by no handler
    and is left out. *)

From Stdlib Require Import ZArith List String Ascii Bool Lia DecimalString.
From Stdlib Require Import Sorted.
Import ListNotations.

Open Scope string_scope.
Open Scope list_scope.
Open Scope Z_scope.

(** ** Python values *)

(** The values the handlers build and return: [None], integers, strings,
    booleans, dictionaries with string keys (in insertion order) and lists. *)
#[warnings="-register-all"]
Inductive value : Type :=
| VNone
| VInt (z : Z)
| VStr (s : string)
| VBool (b : bool)
| VDict (items : list (string * value))
| VList (elems : list value).

(** [str(n)] of a Python integer: decimal digits, with a leading minus sign
    for negative numbers. *)
Definition str_int (n : Z) : string := NilZero.string_of_int (Z.to_int n).

(** An [Optional[str]] as a value. *)
Definition of_optional (o : option string) : value :=
  match o with
  | Some s => VStr s
  | None => VNone
  end.

(** [d[k]] restricted to the first binding of [k]. *)
Fixpoint getitem (k : string) (items : list (string * value)) : option value :=
  match items with
  | [] => None
  | (k', v) :: rest => if String.eqb k k' then Some v else getitem k rest
  end.

Definition field (k : string) (v : value) : option value :=
  match v with
  | VDict items => getitem k items
  | _ => None
  end.

Definition keys (v : value) : list string :=
  match v with
  | VDict items => map fst items
  | _ => []
  end.

(** [s] occurs in [t]. *)
Definition contains (t s : string) : Prop :=
  exists before after, t = (before ++ s ++ after)%string.

(** ** class Post(BaseModel) *)

(** A validated request body.  [phone] and [picture] default to [None] and
    [is_active] to [True] when the body omits them. *)
Record Post : Type := mkPost {
  name : string;
  email : string;
  phone : option string;
  password : string;
  picture : option string;
  is_active : bool
}.

(** ** The users table *)

Module users.

(** Modelled from the spec: the table's DDL is not part of [main.py].  The
    spec gives the columns of [users] as id (generated primary key), name,
    email, phone (nullable) and password, and no column for picture or
    is_active. *)
Record row : Type := mk {
  id : Z;
  name : string;
  email : string;
  phone : option string;
  password : string
}.

Definition has_id (i : Z) (r : row) : bool := id r =? i.

Definition lacks_id (i : Z) (r : row) : bool := negb (has_id i r).

(** [SET name = n, email = e, phone = ph, password = pw WHERE id = i] on
    one row: the id stays, the four columns are replaced. *)
Definition assign (i : Z) (n e : string) (ph : option string) (pw : string)
  (r : row) : row :=
  if has_id i r then mk (id r) n e ph pw else r.

(** Modelled from the spec: the stored state of the table, which
    [main.py] only reaches through SQL.  [rows] are the rows in the order
    a scan meets them; [seq] is the last value of the sequence that
    generates [id]. *)
Record table : Type := mkTable {
  rows : list row;
  seq : Z
}.

Definition ids (t : table) : list Z := map id (rows t).

(** The table with no row, on a sequence that has issued no value. *)
Definition empty : table := mkTable [] 0.

(** The primary key holds and the sequence is not behind any stored id. *)
Definition consistent (t : table) : Prop :=
  NoDup (ids t) /\ Forall (fun r => id r <= seq t) (rows t).

End users.

(** [dict(record)]: the columns of a row, by name, in column order. *)
Definition dict (r : users.row) : value :=
  VDict [ ("id", VInt (users.id r));
          ("name", VStr (users.name r));
          ("email", VStr (users.email r));
          ("phone", of_optional (users.phone r));
          ("password", VStr (users.password r)) ].

(** ** The statements the handlers send *)

Inductive statement : Type :=
| SelectAll
| InsertReturning (n e : string) (ph : option string) (pw : string)
| SelectById (i : Z)
| DeleteById (i : Z)
| UpdateReturning (n e : string) (ph : option string) (pw : string) (i : Z).

(** The text of each statement as [main.py] writes it; the arguments bound
    to [$1], [$2], ... are the constructor's arguments in that order. *)
Definition sql (q : statement) : string :=
  match q with
  | SelectAll => "SELECT * FROM users"
  | InsertReturning _ _ _ _ =>
      "INSERT INTO users (name, email, phone, password) VALUES ($1, $2, $3, $4) RETURNING *"
  | SelectById _ => "SELECT * FROM users WHERE id = $1"
  | DeleteById _ => "DELETE FROM users WHERE id = $1"
  | UpdateReturning _ _ _ _ _ =>
      "UPDATE users SET name = $1, email = $2, phone = $3, password = $4 WHERE id = $5 RETURNING *"
  end.

(** ** Exceptions and completions *)

(** What a statement does: it yields its result rows, or the driver raises
    an exception whose [str] is [e]. *)
Inductive outcome : Type :=
| Rows (rs : list users.row)
| Fails (e : string).

Inductive exn : Type :=
| HTTPException (status_code : Z) (detail : string)
| DriverError (e : string)
| TypeError (e : string).

(** [str(e)]: the message of the exception; an [HTTPException] prints its
    status code first. *)
Definition str_exn (x : exn) : string :=
  match x with
  | HTTPException status_code detail =>
      (str_int status_code ++ ": " ++ detail)%string
  | DriverError e => e
  | TypeError e => e
  end.

(** What a handler hands back to the framework with [return]: a plain value,
    or a [JSONResponse] that carries its own status code. *)
Inductive returned : Type :=
| Plain (v : value)
| JSONResponse (status_code : Z) (content : value).

(** How a block of statements ends: it falls through with a value, executes
    [return], or raises. *)
Inductive completion (A : Type) : Type :=
| Normal (a : A)
| Return (r : returned)
| Raise (x : exn).

Arguments Normal {A} a.
Arguments Return {A} r.
Arguments Raise {A} x.

Definition HTTP_201_CREATED : Z := 201.
Definition HTTP_204_NO_CONTENT : Z := 204.
Definition HTTP_404_NOT_FOUND : Z := 404.

(** ** The pool, the connection and the handlers *)

(** A connection is what the database behind it does with a statement: the
    rows it yields or the error it raises, and the database afterwards. *)
Record Connection (DB : Type) : Type := mkConnection {
  query : statement -> DB -> outcome * DB
}.

Arguments query {DB} _ _ _.

(** What a request can see and change: the number of connections the pool
    has lent out and not yet got back, and the database. *)
Record world (DB : Type) : Type := mkWorld {
  held : nat;
  database : DB
}.

Arguments mkWorld {DB} _ _.
Arguments held {DB} _.
Arguments database {DB} _.

Section Handlers.

Context {DB : Type}.

(** The global [pool]; every connection it lends reaches the same
    database. *)
Variable pool : Connection DB.

Definition M (A : Type) : Type := world DB -> completion A * world DB.

Definition ret {A} (a : A) : M A := fun w => (Normal a, w).

Definition bind {A B} (m : M A) (k : A -> M B) : M B :=
  fun w =>
    match m w with
    | (Normal a, w') => k a w'
    | (Return r, w') => (Return r, w')
    | (Raise x, w') => (Raise x, w')
    end.

Definition return_ {A} (r : returned) : M A := fun w => (Return r, w).

Definition raise {A} (x : exn) : M A := fun w => (Raise x, w).

(** [try: m  except Exception as e: h e]. *)
Definition try_except {A} (m : M A) (h : exn -> M A) : M A :=
  fun w =>
    match m w with
    | (Raise x, w') => h x w'
    | other => other
    end.

Definition acquire (w : world DB) : world DB :=
  mkWorld (S (held w)) (database w).

Definition release (w : world DB) : world DB :=
  mkWorld (Nat.pred (held w)) (database w).

(** [async with pool.acquire() as conn: body conn].  The connection goes
    back to the pool when the block is left, however it is left. *)
Definition async_with_acquire {A} (body : Connection DB -> M A) : M A :=
  fun w =>
    let (c, w') := body pool (acquire w) in
    (c, release w').

(** [await conn.fetch(q)]: all the rows of the result. *)
Definition fetch (conn : Connection DB) (q : statement)
  : M (list users.row) :=
  fun w =>
    match query conn q (database w) with
    | (Rows rs, d) => (Normal rs, mkWorld (held w) d)
    | (Fails e, d) => (Raise (DriverError e), mkWorld (held w) d)
    end.

(** [await conn.fetchrow(q)]: the first row of the result, or [None]. *)
Definition fetchrow (conn : Connection DB) (q : statement)
  : M (option users.row) :=
  bind (fetch conn q) (fun rs => ret (hd_error rs)).

(** [await conn.execute(q)]; the handlers drop the status it returns. *)
Definition execute (conn : Connection DB) (q : statement) : M unit :=
  bind (fetch conn q) (fun _ => ret tt).

(** [dict(result)] for the result of [fetchrow]. *)
Definition dict_of (result : option users.row) : M value :=
  match result with
  | Some r => ret (dict r)
  | None => raise (TypeError "'NoneType' object is not iterable")
  end.

Notation "x <- m ;; k" := (bind m (fun x => k))
  (at level 100, m at next level, right associativity).

Definition get_users : M unit :=
  result <- async_with_acquire (fun conn => fetch conn SelectAll) ;;
  return_ (Plain (VList (map dict result))).

Definition create_user (post : Post) : M unit :=
  result <- async_with_acquire (fun conn =>
    try_except
      (fetchrow conn
         (InsertReturning (name post) (email post) (phone post)
            (password post)))
      (fun e =>
         return_ (JSONResponse 500 (VDict [("error", VStr (str_exn e))])))) ;;
  d <- dict_of result ;;
  return_ (Plain d).

Definition get_user (user_id : Z) : M unit :=
  result <- async_with_acquire (fun conn =>
    fetchrow conn (SelectById user_id)) ;;
  match result with
  | None =>
      raise (HTTPException HTTP_404_NOT_FOUND
               ("User with id:" ++ str_int user_id ++ " was not found")%string)
  | Some r => return_ (Plain (dict r))
  end.

Definition delete_user (user_id : Z) : M unit :=
  _ <- async_with_acquire (fun conn =>
    try_except
      (execute conn (DeleteById user_id))
      (fun e =>
         raise (HTTPException 500
                  ("Failed to delete user: " ++ str_exn e)%string))) ;;
  return_ (Plain (VDict [("message", VStr "User successfully deleted")])).

Definition update_user (user_id : Z) (post : Post) : M unit :=
  result <- async_with_acquire (fun conn =>
    fetchrow conn
      (UpdateReturning (name post) (email post) (phone post)
         (password post) user_id)) ;;
  match result with
  | None =>
      raise (HTTPException HTTP_404_NOT_FOUND
               ("User with id:" ++ str_int user_id ++ " was not found")%string)
  | Some r => return_ (Plain (dict r))
  end.

(** *** The framework around a handler *)

(** How a call of a handler ends; falling off its end returns [None]. *)
Inductive result : Type :=
| Returned (r : returned)
| Raised (x : exn).

Definition call (h : M unit) (w : world DB) : result * world DB :=
  match h w with
  | (Normal _, w') => (Returned (Plain VNone), w')
  | (Return r, w') => (Returned r, w')
  | (Raise x, w') => (Raised x, w')
  end.

(** What the client gets: a response, or nothing the application wrote
    because an exception left the handler unhandled. *)
Inductive http : Type :=
| Response (status_code : Z) (body : value)
| Unhandled (x : exn).

(** A plain return value is sent with the status code of the route's
    decorator, a [JSONResponse] with its own, an [HTTPException] with its
    own and its detail; any other exception is unhandled.  The body is the
    value the handler returned; how the framework serialises it, and
    whether it sends a body at all under a 204, is left to the framework. *)
Definition respond (status_code : Z) (r : result) : http :=
  match r with
  | Returned (Plain v) => Response status_code v
  | Returned (JSONResponse s content) => Response s content
  | Raised (HTTPException s detail) =>
      Response s (VDict [("detail", VStr detail)])
  | Raised x => Unhandled x
  end.

Inductive request : Type :=
| GET_users
| POST_users (post : Post)
| GET_user (user_id : Z)
| DELETE_user (user_id : Z)
| PUT_user (user_id : Z) (post : Post).

(** The handler of each route and the status code its decorator declares
    (200 when it declares none). *)
Definition handler (req : request) : M unit :=
  match req with
  | GET_users => get_users
  | POST_users post => create_user post
  | GET_user user_id => get_user user_id
  | DELETE_user user_id => delete_user user_id
  | PUT_user user_id post => update_user user_id post
  end.

Definition declared_status (req : request) : Z :=
  match req with
  | POST_users _ => HTTP_201_CREATED
  | DELETE_user _ => HTTP_204_NO_CONTENT
  | _ => 200
  end.

Definition app (req : request) (w : world DB) : http * world DB :=
  let (r, w') := call (handler req) w in
  (respond (declared_status req) r, w').

End Handlers.

(** ** The statements on the users table *)

(** Modelled from the spec: what PostgreSQL does with each statement of
    [main.py] on a table with the columns above, whose [id] is a primary key
    generated from a sequence.  An insert takes the next value of the
    sequence whether it succeeds or not, and fails when that id is already
    stored; an update and a delete reach every row whose id matches. *)
Definition exec (q : statement) (t : users.table) : outcome * users.table :=
  match q with
  | SelectAll => (Rows (users.rows t), t)
  | InsertReturning n e ph pw =>
      let i := users.seq t + 1 in
      let r := users.mk i n e ph pw in
      if existsb (users.has_id i) (users.rows t)
      then (Fails "duplicate key value violates unique constraint users_pkey",
            users.mkTable (users.rows t) i)
      else (Rows [r], users.mkTable (users.rows t ++ [r]) i)
  | SelectById i => (Rows (filter (users.has_id i) (users.rows t)), t)
  | DeleteById i =>
      (Rows [],
       users.mkTable
         (filter (users.lacks_id i) (users.rows t))
         (users.seq t))
  | UpdateReturning n e ph pw i =>
      let rows' := map (users.assign i n e ph pw) (users.rows t) in
      (Rows (filter (users.has_id i) rows'), users.mkTable rows' (users.seq t))
  end.

(** A connection to the users table.  [fault] is what the environment does
    to the next statement: [Some e] when the driver raises an error with
    text [e] before the statement takes effect, [None] when the statement
    runs. *)
Definition postgres (fault : option string) : Connection users.table :=
  mkConnection _
    (fun q t =>
       match fault with
       | Some e => (Fails e, t)
       | None => exec q t
       end).

(** The service in front of the users table: one request, under one fault
    of the environment. *)
Definition serve (fault : option string) (req : request)
  (w : world users.table) : http * world users.table :=
  app (postgres fault) req w.

(** A run of requests, each under its own fault, and the responses in
    order. *)
Fixpoint session (reqs : list (option string * request))
  (w : world users.table) : list http * world users.table :=
  match reqs with
  | [] => ([], w)
  | (fault, req) :: rest =>
      let (resp, w') := serve fault req w in
      let (resps, w'') := session rest w' in
      (resp :: resps, w'')
  end.

(** The id a 201 response carries, if the response is one. *)
Definition created_id (resp : http) : option Z :=
  match resp with
  | Response 201 body =>
      match field "id" body with
      | Some (VInt i) => Some i
      | _ => None
      end
  | _ => None
  end.

(** ** Sample data *)

Module sample.

Definition alice : Post :=
  mkPost "alice" "alice@example.org" (Some "555-0100") "hunter2"
    (Some "https://example.org/alice.png") true.

Definition bob : Post :=
  mkPost "bob" "bob@example.org" None "s3cret" None false.

Definition alice_row : users.row :=
  users.mk 1 "alice" "alice@example.org" (Some "555-0100") "hunter2".

Definition carol_row : users.row :=
  users.mk 4 "carol" "carol@example.org" None "pw".

(** A table that has seen four inserts and two deletes. *)
Definition table : users.table := users.mkTable [alice_row; carol_row] 4.

Definition idle : world users.table := mkWorld 0%nat table.

Definition fresh : world users.table := mkWorld 0%nat users.empty.

End sample.

(** The response of [get_user] and [update_user] to an id no row has. *)
Definition not_found (user_id : Z) : http :=
  Response 404
    (VDict [("detail",
             VStr ("User with id:" ++ str_int user_id ++ " was not found")%string)]).

(** What the update statement makes of a row. *)
Definition set_user (user_id : Z) (post : Post) : users.row -> users.row :=
  users.assign user_id (name post) (email post) (phone post) (password post).

(** The row an update by [user_id] leaves under that id. *)
Definition replacement (user_id : Z) (post : Post) : users.row :=
  users.mk user_id (name post) (email post) (phone post) (password post).

(** The row the insert statement adds to a table. *)
Definition inserted (t : users.table) (post : Post) : users.row :=
  users.mk (users.seq t + 1) (name post) (email post) (phone post)
    (password post).

(** ** Scripts of creates and deletes *)

Fixpoint creates (reqs : list request) : nat :=
  match reqs with
  | [] => 0%nat
  | POST_users _ :: rest => S (creates rest)
  | _ :: rest => creates rest
  end.

Fixpoint deletes (reqs : list request) : nat :=
  match reqs with
  | [] => 0%nat
  | DELETE_user _ :: rest => S (deletes rest)
  | _ :: rest => deletes rest
  end.

(** A script and its responses are made of creates, each answered 201 with
    an id, and of deletes, each of an id that an earlier create of the
    script returned and that no earlier delete of the script targeted.
    [live] are the ids created and not yet deleted. *)
Fixpoint targets_created (live : list Z) (reqs : list request)
  (resps : list http) : bool :=
  match reqs, resps with
  | [], _ => true
  | POST_users _ :: reqs', resp :: resps' =>
      match created_id resp with
      | Some i => targets_created (i :: live) reqs' resps'
      | None => false
      end
  | DELETE_user i :: reqs', _ :: resps' =>
      existsb (Z.eqb i) live
      && targets_created (remove Z.eq_dec i live) reqs' resps'
  | _, _ => false
  end.

(** A script run with no fault of the environment. *)
Definition unfaulted (reqs : list request) : list (option string * request) :=
  map (pair None) reqs.

(** ** Observing the handlers *)

(** The statement each route's handler passes to its connection, with the
    arguments in the order the handler binds them. *)
Definition statement_of (req : request) : statement :=
  match req with
  | GET_users => SelectAll
  | POST_users post =>
      InsertReturning (name post) (email post) (phone post) (password post)
  | GET_user user_id => SelectById user_id
  | DELETE_user user_id => DeleteById user_id
  | PUT_user user_id post =>
      UpdateReturning (name post) (email post) (phone post) (password post)
        user_id
  end.

(** A connection that notes every statement it is sent, in order, and hands
    it on to [conn]. *)
Definition recording {DB : Type} (conn : Connection DB)
  : Connection (list statement * DB) :=
  mkConnection _
    (fun q s =>
       let (o, d) := query conn q (snd s) in
       (o, (fst s ++ [q], d))).

(** The world of [conn] behind a recording connection. *)
Definition behind {DB : Type} (w : world (list statement * DB)) : world DB :=
  mkWorld (held w) (snd (database w)).


(** The ids of the 201 responses of a run, in order. *)
Fixpoint created_ids (resps : list http) : list Z :=
  match resps with
  | [] => []
  | resp :: rest =>
      match created_id resp with
      | Some i => i :: created_ids rest
      | None => created_ids rest
      end
  end.


Module stub.

(** A database that takes every statement and yields no row. *)
Definition mute : Connection unit :=
  mkConnection _ (fun _ d => (Rows [], d)).

Definition idle : world unit := mkWorld 0%nat tt.

End stub.

(** Unfolds a handler down to the statement it sends. *)
Ltac run_handler :=
  unfold serve, app, call, handler, declared_status,
    get_users, create_user, get_user, delete_user, update_user,
    dict_of, execute, fetchrow, fetch, async_with_acquire, try_except,
    bind, ret, return_, raise, acquire, release, postgres;
  simpl.


(** ** Lists of rows *)

Section RowLists.

Variable i : Z.

Lemma has_id_true (r : users.row) :
  users.has_id i r = true <-> users.id r = i.
Proof. unfold users.has_id. apply Z.eqb_eq. Qed.

Lemma has_id_false (r : users.row) :
  users.has_id i r = false <-> users.id r <> i.
Proof. unfold users.has_id. apply Z.eqb_neq. Qed.

Lemma In_ids (l : list users.row) :
  In i (map users.id l) <-> exists r, In r l /\ users.id r = i.
Proof.
  rewrite in_map_iff. split; intros [r [H1 H2]]; exists r; tauto.
Qed.

(** No row has the id: the selection by id is empty. *)
Lemma select_absent (l : list users.row) :
  ~ In i (map users.id l) -> filter (users.has_id i) l = [].
Proof.
  induction l as [|r l IH]; simpl; intros H; [reflexivity|].
  destruct (users.has_id i r) eqn:E.
  - apply has_id_true in E. tauto.
  - apply IH. tauto.
Qed.

(** Some row has the id: the selection by id starts with such a row. *)
Lemma select_present (l : list users.row) :
  In i (map users.id l) ->
  exists r rest,
    filter (users.has_id i) l = r :: rest /\ In r l /\ users.id r = i.
Proof.
  induction l as [|r l IH]; simpl; intros H; [contradiction|].
  destruct (users.has_id i r) eqn:E.
  - apply has_id_true in E. exists r, (filter (users.has_id i) l). tauto.
  - apply has_id_false in E. destruct H as [H|H]; [contradiction|].
    destruct (IH H) as [r' [rest [H1 [H2 H3]]]].
    exists r', rest. tauto.
Qed.

(** After the delete no row has the id. *)
Lemma delete_absent (l : list users.row) :
  ~ In i (map users.id (filter (users.lacks_id i) l)).
Proof.
  rewrite In_ids. intros [r [H1 H2]].
  apply filter_In in H1. destruct H1 as [_ H1].
  apply has_id_true in H2. unfold users.lacks_id in H1. rewrite H2 in H1.
  discriminate.
Qed.

(** A delete by an id that no row has keeps every row. *)
Lemma delete_none (l : list users.row) :
  ~ In i (map users.id l) -> filter (users.lacks_id i) l = l.
Proof.
  induction l as [|r l IH]; simpl; intros H; [reflexivity|].
  assert (Eo : users.lacks_id i r = negb (users.has_id i r)) by reflexivity.
  rewrite Eo. destruct (users.has_id i r) eqn:E; simpl.
  - apply has_id_true in E. tauto.
  - f_equal. apply IH. tauto.
Qed.

(** Under the primary key a delete takes out one row at most, and keeps
    the rows around it as they were. *)
Lemma delete_one (l : list users.row) :
  NoDup (map users.id l) ->
  filter (users.lacks_id i) l = l \/
  exists before r after,
    users.id r = i /\ l = before ++ r :: after /\
    filter (users.lacks_id i) l = before ++ after.
Proof.
  induction l as [|r l IH]; simpl; intros H; [left; reflexivity|].
  apply NoDup_cons_iff in H. destruct H as [Hr Hl].
  assert (Eo : users.lacks_id i r = negb (users.has_id i r)) by reflexivity.
  rewrite !Eo. destruct (users.has_id i r) eqn:E; simpl.
  - right. apply has_id_true in E. exists [], r, l. simpl.
    repeat split; try assumption.
    apply delete_none. now rewrite <- E.
  - destruct (IH Hl) as [H|[before [x [after [H1 [H2 H3]]]]]].
    + left. now rewrite H.
    + right. exists (r :: before), x, after. simpl.
      rewrite H3. rewrite H2 at 1. tauto.
Qed.

End RowLists.

(** ** The service on the users table, request by request *)

Lemma serve_GET_users (fault : option string) (w : world users.table) :
  serve fault GET_users w =
  (match fault with
   | Some e => Unhandled (DriverError e)
   | None => Response 200 (VList (map dict (users.rows (database w))))
   end, w).
Proof. destruct w, fault; reflexivity. Qed.

Lemma serve_GET_user (fault : option string) (user_id : Z)
  (w : world users.table) :
  serve fault (GET_user user_id) w =
  (match fault with
   | Some e => Unhandled (DriverError e)
   | None =>
       match filter (users.has_id user_id) (users.rows (database w)) with
       | r :: _ => Response 200 (dict r)
       | [] => not_found user_id
       end
   end, w).
Proof.
  destruct w as [h d], fault; [reflexivity|].
  run_handler.
  destruct (filter (users.has_id user_id) (users.rows d)); reflexivity.
Qed.

Lemma serve_DELETE_user (fault : option string) (user_id : Z)
  (w : world users.table) :
  serve fault (DELETE_user user_id) w =
  match fault with
  | Some e =>
      (Response 500
         (VDict [("detail", VStr ("Failed to delete user: " ++ e)%string)]),
       w)
  | None =>
      (Response 204 (VDict [("message", VStr "User successfully deleted")]),
       mkWorld (held w)
         (users.mkTable
            (filter (users.lacks_id user_id) (users.rows (database w)))
            (users.seq (database w))))
  end.
Proof. destruct w, fault; reflexivity. Qed.

Lemma serve_PUT_user (fault : option string) (user_id : Z) (post : Post)
  (w : world users.table) :
  serve fault (PUT_user user_id post) w =
  match fault with
  | Some e => (Unhandled (DriverError e), w)
  | None =>
      let rows' := map (set_user user_id post) (users.rows (database w)) in
      (match filter (users.has_id user_id) rows' with
       | r :: _ => Response 200 (dict r)
       | [] => not_found user_id
       end,
       mkWorld (held w) (users.mkTable rows' (users.seq (database w))))
  end.
Proof.
  destruct w as [h d], fault; [reflexivity|].
  run_handler. fold (set_user user_id post).
  destruct (filter (users.has_id user_id)
              (map (set_user user_id post) (users.rows d))); reflexivity.
Qed.

Lemma serve_POST_users (fault : option string) (post : Post)
  (w : world users.table) :
  serve fault (POST_users post) w =
  match fault with
  | Some e => (Response 500 (VDict [("error", VStr e)]), w)
  | None =>
      let t := database w in
      let r := inserted t post in
      if existsb (users.has_id (users.id r)) (users.rows t)
      then
        (Response 500
           (VDict [("error",
                    VStr "duplicate key value violates unique constraint users_pkey")]),
         mkWorld (held w) (users.mkTable (users.rows t) (users.id r)))
      else
        (Response 201 (dict r),
         mkWorld (held w) (users.mkTable (users.rows t ++ [r]) (users.id r)))
  end.
Proof.
  destruct w as [h d], fault; [reflexivity|].
  run_handler.
  destruct (existsb (users.has_id (users.seq d + 1)) (users.rows d));
    reflexivity.
Qed.

(** ** Reading one user *)

Lemma contains_middle (before s after : string) :
  contains (before ++ s ++ after)%string s.
Proof. exists before, after. reflexivity. Qed.

(** C5.  [GET /users/{id}] for an id that no row of the table has answers
    404 with the detail "User with id:{id} was not found", which contains
    the id in decimal, and leaves the world as it was; for an id that some
    row has it answers 200 with the record of a row that has this id. *)
Theorem get_user_found_or_404 (user_id : Z) (w : world users.table) :
  (~ In user_id (users.ids (database w)) ->
   exists detail,
     serve None (GET_user user_id) w =
       (Response 404 (VDict [("detail", VStr detail)]), w) /\
     detail = ("User with id:" ++ str_int user_id ++ " was not found")%string /\
     contains detail (str_int user_id)) /\
  (In user_id (users.ids (database w)) ->
   exists r,
     In r (users.rows (database w)) /\ users.id r = user_id /\
     serve None (GET_user user_id) w = (Response 200 (dict r), w)).
Proof.
  rewrite serve_GET_user. unfold users.ids. split; intros H.
  - rewrite (select_absent _ _ H). eexists. split; [reflexivity|].
    split; [reflexivity|]. apply contains_middle.
  - destruct (select_present _ _ H) as [r [rest [H1 [H2 H3]]]].
    rewrite H1. exists r. auto.
Qed.

Lemma get_user_found_or_404_witness :
  (~ In 7 (users.ids (database sample.idle)) /\
   serve None (GET_user 7) sample.idle =
     (Response 404 (VDict [("detail", VStr "User with id:7 was not found")]),
      sample.idle)) /\
  (In 4 (users.ids (database sample.idle)) /\
   serve None (GET_user 4) sample.idle =
     (Response 200 (dict sample.carol_row), sample.idle)).
Proof.
  assert (H7 : ~ In 7 (users.ids (database sample.idle)))
    by (simpl; intros [H|[H|[]]]; discriminate).
  assert (H4 : In 4 (users.ids (database sample.idle)))
    by (simpl; right; left; reflexivity).
  split; split; try assumption.
  - destruct (proj1 (get_user_found_or_404 7 sample.idle) H7)
      as [detail [H [E _]]].
    rewrite H, E. reflexivity.
  - destruct (proj2 (get_user_found_or_404 4 sample.idle) H4)
      as [r [Hr [Hid H]]].
    rewrite H. simpl in Hr. destruct Hr as [Hr|[Hr|[]]]; subst r.
    + discriminate Hid.
    + reflexivity.
Defined.

(** ** Deleting one user *)

(** C4.  [DELETE /users/{id}] answers with the route's success status and
    the message "User successfully deleted" for every id and every table,
    whether or not a row has the id; afterwards no row has the id, so a
    [GET /users/{id}] for it answers 404. *)
Theorem delete_user_always_succeeds (user_id : Z) (w : world users.table) :
  exists w',
    serve None (DELETE_user user_id) w =
      (Response HTTP_204_NO_CONTENT
         (VDict [("message", VStr "User successfully deleted")]), w') /\
    fst (call (delete_user (postgres None) user_id) w) =
      Returned (Plain (VDict [("message", VStr "User successfully deleted")])) /\
    ~ In user_id (users.ids (database w')) /\
    serve None (GET_user user_id) w' =
      (Response HTTP_404_NOT_FOUND
         (VDict [("detail",
                  VStr ("User with id:" ++ str_int user_id
                        ++ " was not found")%string)]), w').
Proof.
  rewrite serve_DELETE_user. eexists. split; [reflexivity|].
  split; [destruct w; reflexivity|].
  assert (H : ~ In user_id
                (map users.id
                   (filter (users.lacks_id user_id) (users.rows (database w)))))
    by apply delete_absent.
  split; [exact H|].
  rewrite serve_GET_user. simpl. rewrite (select_absent _ _ H). reflexivity.
Qed.

(** ** The reads change nothing *)

(** C9.  [GET /users] and [GET /users/{id}] leave the users table, and the
    pool, as they found them: for every table, every id and whatever the
    database does with the select (rows found, no row found, or an error). *)
Theorem reads_leave_table_unchanged (fault : option string) (user_id : Z)
  (w : world users.table) :
  snd (serve fault GET_users w) = w /\
  snd (serve fault (GET_user user_id) w) = w /\
  database (snd (serve fault GET_users w)) = database w /\
  database (snd (serve fault (GET_user user_id) w)) = database w.
Proof.
  rewrite serve_GET_users, serve_GET_user. simpl. auto.
Qed.

(** ** Updating one user *)

Section Update.

Variables (user_id : Z) (post : Post).

Lemma set_user_eq (r : users.row) :
  set_user user_id post r =
  if users.has_id user_id r
  then users.mk (users.id r) (name post) (email post) (phone post)
         (password post)
  else r.
Proof. reflexivity. Qed.

Lemma set_user_id (r : users.row) :
  users.id (set_user user_id post r) = users.id r.
Proof.
  unfold set_user, users.assign.
  destruct (users.has_id user_id r); reflexivity.
Qed.

Lemma set_user_ids (l : list users.row) :
  map users.id (map (set_user user_id post) l) = map users.id l.
Proof.
  rewrite map_map. apply map_ext. exact set_user_id.
Qed.

Lemma set_user_absent (l : list users.row) :
  ~ In user_id (map users.id l) -> map (set_user user_id post) l = l.
Proof.
  induction l as [|r l IH]; simpl; intros H; [reflexivity|].
  rewrite IH by tauto. unfold set_user, users.assign.
  destruct (users.has_id user_id r) eqn:E; [|reflexivity].
  apply has_id_true in E. tauto.
Qed.

Lemma set_user_present (l : list users.row) :
  In user_id (map users.id l) ->
  exists rest,
    filter (users.has_id user_id) (map (set_user user_id post) l) =
    replacement user_id post :: rest.
Proof.
  intros H. rewrite <- set_user_ids in H.
  destruct (select_present _ _ H) as [r [rest [H1 [H2 H3]]]].
  exists rest. rewrite H1. f_equal.
  apply in_map_iff in H2. destruct H2 as [r0 [H2 _]].
  subst r. rewrite set_user_id in H3. unfold set_user, users.assign.
  apply has_id_true in H3. rewrite H3.
  apply has_id_true in H3. now rewrite H3.
Qed.

(** Under the primary key an update rewrites one row at most, in place. *)
Lemma set_user_one (l : list users.row) :
  NoDup (map users.id l) ->
  map (set_user user_id post) l = l \/
  exists before r after,
    users.id r = user_id /\ l = before ++ r :: after /\
    map (set_user user_id post) l = before ++ replacement user_id post :: after.
Proof.
  induction l as [|r l IH]; simpl; intros H; [left; reflexivity|].
  apply NoDup_cons_iff in H. destruct H as [Hr Hl].
  rewrite !(set_user_eq r). destruct (users.has_id user_id r) eqn:E.
  - right. apply has_id_true in E. exists [], r, l. simpl.
    rewrite set_user_absent by now rewrite <- E.
    rewrite E. auto.
  - destruct (IH Hl) as [H|[before [x [after [H1 [H2 H3]]]]]].
    + left. now rewrite H.
    + right. exists (r :: before), x, after. simpl.
      rewrite H3. rewrite H2 at 1. tauto.
Qed.

End Update.

(** C3.  [PUT /users/{id}] answers 404 exactly when no row of the table has
    the id, and then changes nothing.  When a row has the id it answers 200
    with a record whose id is the requested one and whose name, email,
    phone and password are the payload's (a [None] phone included); no id of
    the table changes, and a following [GET /users/{id}] returns the same
    record. *)
Theorem update_user_404_or_updated (user_id : Z) (post : Post)
  (w : world users.table) :
  let out := serve None (PUT_user user_id post) w in
  let r :=
    users.mk user_id (name post) (email post) (phone post) (password post) in
  ((exists body, fst out = Response HTTP_404_NOT_FOUND body) <->
   ~ In user_id (users.ids (database w))) /\
  (~ In user_id (users.ids (database w)) ->
   out =
     (Response HTTP_404_NOT_FOUND
        (VDict [("detail",
                 VStr ("User with id:" ++ str_int user_id
                       ++ " was not found")%string)]), w)) /\
  (In user_id (users.ids (database w)) ->
   fst out = Response 200 (dict r) /\
   field "id" (dict r) = Some (VInt user_id) /\
   field "name" (dict r) = Some (VStr (name post)) /\
   field "email" (dict r) = Some (VStr (email post)) /\
   field "phone" (dict r) = Some (of_optional (phone post)) /\
   field "password" (dict r) = Some (VStr (password post)) /\
   users.ids (database (snd out)) = users.ids (database w) /\
   serve None (GET_user user_id) (snd out) = (Response 200 (dict r), snd out)).
Proof.
  intros out r. subst out. rewrite serve_PUT_user. cbv zeta.
  unfold users.ids.
  assert (Habsent : ~ In user_id (map users.id (users.rows (database w))) ->
    filter (users.has_id user_id)
      (map (set_user user_id post) (users.rows (database w))) = []).
  { intros H. apply select_absent. now rewrite set_user_ids. }
  split; [split|split].
  - intros [body Hb] Hin. simpl in Hb.
    destruct (set_user_present user_id post _ Hin) as [rest Hrest].
    rewrite Hrest in Hb. discriminate Hb.
  - intros H. simpl. rewrite (Habsent H). eexists. reflexivity.
  - intros H. rewrite (Habsent H), set_user_absent by exact H.
    destruct w as [h [rows seq]]. reflexivity.
  - intros H. destruct (set_user_present user_id post _ H) as [rest Hrest].
    simpl. rewrite Hrest.
    repeat (split; [reflexivity|]).
    split; [apply set_user_ids|].
    rewrite serve_GET_user. simpl. rewrite Hrest. reflexivity.
Qed.

Lemma update_user_404_or_updated_witness :
  (~ In 9 (users.ids (database sample.idle)) /\
   serve None (PUT_user 9 sample.bob) sample.idle =
     (Response 404 (VDict [("detail", VStr "User with id:9 was not found")]),
      sample.idle)) /\
  (In 4 (users.ids (database sample.idle)) /\
   fst (serve None (PUT_user 4 sample.bob) sample.idle) =
     Response 200
       (dict (users.mk 4 "bob" "bob@example.org" None "s3cret"))).
Proof.
  assert (H9 : ~ In 9 (users.ids (database sample.idle)))
    by (simpl; intros [H|[H|[]]]; discriminate).
  assert (H4 : In 4 (users.ids (database sample.idle)))
    by (simpl; right; left; reflexivity).
  split; split; try assumption.
  - destruct (update_user_404_or_updated 9 sample.bob sample.idle)
      as [_ [H _]].
    exact (H H9).
  - destruct (update_user_404_or_updated 4 sample.bob sample.idle)
      as [_ [_ H]].
    exact (proj1 (H H4)).
Defined.

(** ** The primary key and the sequence *)

Lemma existsb_has_id (i : Z) (l : list users.row) :
  existsb (users.has_id i) l = false <-> ~ In i (map users.id l).
Proof.
  induction l as [|r l IH]; simpl; [tauto|].
  rewrite orb_false_iff, IH, has_id_false. intuition congruence.
Qed.

Lemma consistent_fresh (t : users.table) :
  users.consistent t -> ~ In (users.seq t + 1) (users.ids t).
Proof.
  intros [_ H] Hin. apply In_ids in Hin. destruct Hin as [r [H1 H2]].
  rewrite Forall_forall in H. specialize (H r H1). lia.
Qed.

Lemma consistent_empty : users.consistent users.empty.
Proof. split; constructor. Qed.

Lemma NoDup_ids_filter (f : users.row -> bool) (l : list users.row) :
  NoDup (map users.id l) -> NoDup (map users.id (filter f l)).
Proof.
  induction l as [|r l IH]; simpl; intros H; [constructor|].
  apply NoDup_cons_iff in H. destruct H as [Hr Hl].
  destruct (f r); simpl; [|auto].
  constructor; [|auto].
  intros Hin. apply Hr. apply in_map_iff in Hin.
  destruct Hin as [x [H1 H2]]. apply filter_In in H2.
  apply in_map_iff. exists x. tauto.
Qed.

Lemma NoDup_snoc (i : Z) (l : list Z) :
  NoDup l -> ~ In i l -> NoDup (l ++ [i]).
Proof.
  induction l as [|x l IH]; simpl; intros H Hi.
  - constructor; [tauto|constructor].
  - apply NoDup_cons_iff in H. destruct H as [Hx Hl].
    constructor; [|apply IH; tauto].
    rewrite in_app_iff. simpl. intuition congruence.
Qed.

(** What one request does to the table's consistency, to its sequence and
    to the ids it hands out. *)
Lemma serve_consistent (fault : option string) (req : request)
  (w : world users.table) :
  users.consistent (database w) ->
  users.consistent (database (snd (serve fault req w))) /\
  users.seq (database w) <= users.seq (database (snd (serve fault req w))) /\
  (forall i, created_id (fst (serve fault req w)) = Some i ->
     users.seq (database w) < i <= users.seq (database (snd (serve fault req w)))).
Proof.
  intros Hc. pose proof Hc as [Hnd Hle]. unfold users.ids in Hnd.
  destruct req as [|post|user_id|user_id|user_id post].
  - rewrite serve_GET_users. simpl. split; [exact Hc|]. split; [lia|].
    destruct fault; discriminate.
  - rewrite serve_POST_users. destruct fault as [e|]; simpl.
    + split; [exact Hc|]. split; [lia|]. discriminate.
    + pose proof (consistent_fresh _ Hc) as Hfresh.
      apply existsb_has_id in Hfresh. simpl. rewrite Hfresh. simpl.
      apply existsb_has_id in Hfresh.
      split; [|split; [lia|intros i Hi; injection Hi as <-; lia]].
      split; unfold users.ids; simpl.
      * rewrite map_app. apply NoDup_snoc; assumption.
      * apply Forall_app. split.
        -- eapply Forall_impl; [|exact Hle]. simpl. intros; lia.
        -- constructor; [simpl; lia|constructor].
  - rewrite serve_GET_user. simpl. split; [exact Hc|]. split; [lia|].
    destruct fault; [discriminate|].
    destruct (filter _ _); discriminate.
  - rewrite serve_DELETE_user. destruct fault as [e|]; simpl.
    + split; [exact Hc|]. split; [lia|]. discriminate.
    + split; [|split; [lia|discriminate]].
      split; unfold users.ids; simpl.
      * now apply NoDup_ids_filter.
      * apply Forall_forall. intros r Hr. apply filter_In in Hr.
        rewrite Forall_forall in Hle. apply Hle. tauto.
  - rewrite serve_PUT_user. destruct fault as [e|]; simpl.
    + split; [exact Hc|]. split; [lia|]. discriminate.
    + split; [|split; [lia|]].
      * split; unfold users.ids; simpl.
        -- now rewrite set_user_ids.
        -- apply Forall_forall. intros r Hr. apply in_map_iff in Hr.
           destruct Hr as [x [<- Hx]]. rewrite set_user_id.
           rewrite Forall_forall in Hle. now apply Hle.
      * destruct (filter _ _); discriminate.
Qed.

Lemma session_consistent (reqs : list (option string * request))
  (w : world users.table) :
  users.consistent (database w) ->
  users.consistent (database (snd (session reqs w))) /\
  users.seq (database w) <= users.seq (database (snd (session reqs w))) /\
  (forall i, In (Some i) (map created_id (fst (session reqs w))) ->
     users.seq (database w) < i <= users.seq (database (snd (session reqs w)))).
Proof.
  revert w. induction reqs as [|[fault req] reqs IH]; intros w Hc; simpl.
  - split; [exact Hc|]. split; [lia|]. intros i [].
  - destruct (serve_consistent fault req w Hc) as [Hc1 [Hle1 Hid1]].
    destruct (serve fault req w) as [resp w1]. simpl in *.
    destruct (IH w1 Hc1) as [Hc2 [Hle2 Hid2]].
    destruct (session reqs w1) as [resps w2]. simpl in *.
    split; [exact Hc2|]. split; [lia|].
    intros i [Hi|Hi].
    + specialize (Hid1 i Hi). lia.
    + specialize (Hid2 i Hi). lia.
Qed.

(** ** Creating a user *)

(** On a consistent table an insert that the environment lets through
    succeeds. *)
Lemma serve_POST_users_ok (post : Post) (w : world users.table) :
  users.consistent (database w) ->
  serve None (POST_users post) w =
  (Response 201 (dict (inserted (database w) post)),
   mkWorld (held w)
     (users.mkTable
        (users.rows (database w) ++ [inserted (database w) post])
        (users.seq (database w) + 1))).
Proof.
  intros Hc. rewrite serve_POST_users. cbv zeta.
  pose proof (consistent_fresh _ Hc) as Hfresh.
  apply existsb_has_id in Hfresh. simpl. rewrite Hfresh. reflexivity.
Qed.

(** C2.  After any run of requests from a consistent table, [POST /users]
    with a payload answers 201 with the record of the row it appends to the
    table.  The record's name, email, phone and password are the payload's.
    Its id is an integer that no row of the table has, that no row had when
    the run started, that no 201 response of the run carried, and that is
    above every value the sequence had issued.  The record has no picture
    and no is_active key, and the response and the table afterwards are the
    same whatever picture and is_active the payload carries. *)
Theorem create_user_returns_fresh_row
  (history : list (option string * request)) (w0 : world users.table)
  (post : Post) :
  users.consistent (database w0) ->
  let w := snd (session history w0) in
  exists r w',
    serve None (POST_users post) w =
      (Response HTTP_201_CREATED (dict r), w') /\
    field "id" (dict r) = Some (VInt (users.id r)) /\
    field "name" (dict r) = Some (VStr (name post)) /\
    field "email" (dict r) = Some (VStr (email post)) /\
    field "phone" (dict r) = Some (of_optional (phone post)) /\
    field "password" (dict r) = Some (VStr (password post)) /\
    keys (dict r) = ["id"; "name"; "email"; "phone"; "password"] /\
    users.rows (database w') = users.rows (database w) ++ [r] /\
    ~ In (users.id r) (users.ids (database w)) /\
    ~ In (users.id r) (users.ids (database w0)) /\
    ~ In (Some (users.id r)) (map created_id (fst (session history w0))) /\
    users.seq (database w) < users.id r /\
    (forall pic act,
       serve None
         (POST_users
            (mkPost (name post) (email post) (phone post) (password post)
               pic act)) w =
       serve None (POST_users post) w).
Proof.
  intros Hc0 w.
  destruct (session_consistent history w0 Hc0) as [Hc [Hle Hid]].
  fold w in Hc, Hle, Hid.
  exists (inserted (database w) post). eexists.
  split; [apply serve_POST_users_ok; exact Hc|].
  repeat (split; [reflexivity|]).
  split; [apply consistent_fresh; exact Hc|].
  split.
  { intros Hin. apply In_ids in Hin. destruct Hin as [r [H1 H2]].
    destruct Hc0 as [_ H]. rewrite Forall_forall in H.
    specialize (H r H1). simpl in H2. lia. }
  split.
  { intros Hin. specialize (Hid _ Hin). simpl in Hid. lia. }
  split; [simpl; lia|].
  intros pic act. rewrite !serve_POST_users_ok by exact Hc. reflexivity.
Qed.

Lemma create_user_returns_fresh_row_witness :
  let history := [(None, POST_users sample.alice); (None, DELETE_user 1)] in
  users.consistent (database sample.fresh) /\
  exists r w',
    serve None (POST_users sample.bob) (snd (session history sample.fresh)) =
      (Response 201 (dict r), w') /\
    field "name" (dict r) = Some (VStr "bob") /\
    ~ In (Some (users.id r))
        (map created_id (fst (session history sample.fresh))).
Proof.
  intros history. split; [exact consistent_empty|].
  destruct (create_user_returns_fresh_row history sample.fresh sample.bob
              consistent_empty)
    as [r [w' [H1 [_ [H2 [_ [_ [_ [_ [_ [_ [_ [H3 _]]]]]]]]]]]]].
  exists r, w'. repeat split; assumption.
Defined.

(** C1.  On a consistent table, [POST /users] answers 201 with a record,
    and [GET /users/{id}] with the id of that record then answers 200 with
    the same record: same id, name, email, phone and password, which are
    the payload's; neither record has a picture or an is_active key. *)
Theorem create_then_get_round_trip (post : Post) (w : world users.table) :
  users.consistent (database w) ->
  exists created fetched i w',
    serve None (POST_users post) w = (Response 201 created, w') /\
    created_id (Response 201 created) = Some i /\
    serve None (GET_user i) w' = (Response 200 fetched, w') /\
    fetched = created /\
    field "name" fetched = Some (VStr (name post)) /\
    field "email" fetched = Some (VStr (email post)) /\
    field "phone" fetched = Some (of_optional (phone post)) /\
    field "password" fetched = Some (VStr (password post)) /\
    keys fetched = ["id"; "name"; "email"; "phone"; "password"].
Proof.
  intros Hc.
  exists (dict (inserted (database w) post)),
    (dict (inserted (database w) post)), (users.seq (database w) + 1).
  eexists. split; [apply serve_POST_users_ok; exact Hc|].
  split; [reflexivity|].
  split; [|repeat (split; [reflexivity|]); reflexivity].
  rewrite serve_GET_user. simpl. rewrite filter_app.
  rewrite select_absent by (apply consistent_fresh; exact Hc).
  simpl. unfold users.has_id. simpl. rewrite Z.eqb_refl. reflexivity.
Qed.

Lemma create_then_get_round_trip_witness :
  users.consistent (database sample.idle) /\
  exists w',
    serve None (POST_users sample.bob) sample.idle =
      (Response 201
         (dict (users.mk 5 "bob" "bob@example.org" None "s3cret")), w') /\
    serve None (GET_user 5) w' =
      (Response 200
         (dict (users.mk 5 "bob" "bob@example.org" None "s3cret")), w').
Proof.
  assert (Hc : users.consistent (database sample.idle)).
  { split; simpl.
    - repeat constructor; simpl; intuition discriminate.
    - repeat constructor; simpl; lia. }
  split; [exact Hc|].
  destruct (create_then_get_round_trip sample.bob sample.idle Hc)
    as [created [fetched [i [w' [H1 [H2 [H3 [H4 _]]]]]]]].
  exists w'. subst fetched.
  assert (E : created = dict (users.mk 5 "bob" "bob@example.org" None "s3cret")).
  { rewrite serve_POST_users_ok in H1 by exact Hc.
    injection H1 as H1 _. symmetry. exact H1. }
  assert (Ei : i = 5).
  { rewrite E in H2. simpl in H2. injection H2 as H2. symmetry. exact H2. }
  rewrite Ei, E in *. split; assumption.
Defined.

(** ** What the writes leave alone *)

(** C10.  On a consistent table and whatever the database does with the
    statement: after [DELETE /users/{id}] the rows are the rows before, or
    the rows before without one row, which has the id; after
    [PUT /users/{id}] the rows are the rows before, or the rows before with
    one row, which has the id, replaced in place by the payload's row under
    the same id; and when [POST /users] answers 201 the rows are the rows
    before followed by one new row, the one the response carries, under an
    id no row had. *)
Theorem writes_touch_only_their_target (fault : option string)
  (user_id : Z) (post : Post) (w : world users.table) :
  users.consistent (database w) ->
  let rows := users.rows (database w) in
  let after req := users.rows (database (snd (serve fault req w))) in
  (after (DELETE_user user_id) = rows \/
   exists before r rest,
     users.id r = user_id /\ rows = before ++ r :: rest /\
     after (DELETE_user user_id) = before ++ rest) /\
  (after (PUT_user user_id post) = rows \/
   exists before r rest,
     users.id r = user_id /\ rows = before ++ r :: rest /\
     after (PUT_user user_id post) =
       before
       ++ users.mk user_id (name post) (email post) (phone post)
            (password post)
       :: rest) /\
  (forall body,
     fst (serve fault (POST_users post) w) = Response 201 body ->
     exists r,
       body = dict r /\ ~ In (users.id r) (users.ids (database w)) /\
       after (POST_users post) = rows ++ [r]).
Proof.
  intros [Hnd Hle] rows after. subst after. cbv beta.
  rewrite serve_DELETE_user, serve_PUT_user, serve_POST_users.
  destruct fault as [e|]; simpl.
  - split; [left; reflexivity|]. split; [left; reflexivity|].
    intros body H. discriminate H.
  - split; [apply delete_one; exact Hnd|].
    split; [apply set_user_one; exact Hnd|].
    intros body.
    destruct (existsb _ _) eqn:E; simpl; intros H; [discriminate H|].
    injection H as <-. eexists. split; [reflexivity|].
    split; [|reflexivity]. apply existsb_has_id. exact E.
Qed.

Lemma writes_touch_only_their_target_witness :
  users.consistent (database sample.idle) /\
  exists r,
    fst (serve None (POST_users sample.bob) sample.idle) =
      Response 201 (dict r) /\
    users.rows (database (snd (serve None (POST_users sample.bob) sample.idle)))
    = [sample.alice_row; sample.carol_row] ++ [r].
Proof.
  assert (Hc : users.consistent (database sample.idle)).
  { split; simpl.
    - repeat constructor; simpl; intuition discriminate.
    - repeat constructor; simpl; lia. }
  split; [exact Hc|].
  destruct (writes_touch_only_their_target None 4 sample.bob sample.idle Hc)
    as [_ [_ H]].
  destruct (H _ eq_refl) as [r [Hb [_ Hr]]].
  exists r. split; [rewrite <- Hb; reflexivity|exact Hr].
Defined.

(** ** Listing the users *)

Lemma NoDup_remove_id (i : Z) (l : list Z) :
  NoDup l -> NoDup (remove Z.eq_dec i l).
Proof.
  induction l as [|x l IH]; simpl; intros H; [constructor|].
  apply NoDup_cons_iff in H. destruct H as [Hx Hl].
  destruct (Z.eq_dec i x); [auto|].
  constructor; [|auto].
  intros Hin. apply in_remove in Hin. tauto.
Qed.

Lemma record_ids_NoDup (l : list users.row) :
  NoDup (map users.id l) -> NoDup (map (field "id") (map dict l)).
Proof.
  induction l as [|r l IH]; simpl; intros H; [constructor|].
  apply NoDup_cons_iff in H. destruct H as [Hr Hl].
  constructor; [|auto].
  intros Hin. apply Hr. rewrite map_map in Hin.
  apply in_map_iff in Hin. destruct Hin as [x [H1 H2]].
  simpl in H1. injection H1 as H1. apply in_map_iff. exists x. tauto.
Qed.

(** A script of creates and deletes that targets what it created changes
    the number of rows by its creates less its deletes, and keeps the table
    consistent. *)
Lemma script_count (reqs : list request) :
  forall (live : list Z) (w : world users.table),
    users.consistent (database w) ->
    NoDup live ->
    incl live (users.ids (database w)) ->
    targets_created live reqs (fst (session (unfaulted reqs) w)) = true ->
    users.consistent (database (snd (session (unfaulted reqs) w))) /\
    (List.length (users.rows (database (snd (session (unfaulted reqs) w))))
     + deletes reqs
     = List.length (users.rows (database w)) + creates reqs)%nat.
Proof.
  induction reqs as [|req reqs IH]; intros live w Hc Hlive Hincl; simpl.
  - intros _. split; [exact Hc|reflexivity].
  - pose proof (serve_consistent None req w Hc) as [Hc1 _].
    destruct req as [|post|user_id|user_id|user_id post];
      try (destruct (serve None _ w) as [resp w1];
           destruct (session (unfaulted reqs) w1) as [resps w2];
           simpl; intros H; discriminate H).
    + rewrite serve_POST_users_ok in * by exact Hc.
      set (r := inserted (database w) post) in *.
      set (w1 := mkWorld (held w) _) in *.
      specialize (IH (users.id r :: live) w1 Hc1).
      destruct (session (unfaulted reqs) w1) as [resps w2].
      simpl in *. intros H.
      destruct IH as [Hc2 Hlen]; [| |exact H|].
      * constructor; [|exact Hlive].
        intros Hin. apply Hincl in Hin.
        apply (consistent_fresh _ Hc). exact Hin.
      * unfold users.ids. simpl. rewrite map_app. simpl.
        intros x [<-|Hx]; apply in_app_iff; [right; left; reflexivity|].
        left. apply Hincl. exact Hx.
      * split; [exact Hc2|]. rewrite length_app in Hlen. simpl in Hlen. lia.
    + rewrite serve_DELETE_user in *.
      set (w1 := mkWorld (held w) _) in *.
      specialize (IH (remove Z.eq_dec user_id live) w1 Hc1).
      destruct (session (unfaulted reqs) w1) as [resps w2].
      simpl in *. intros H. apply andb_true_iff in H. destruct H as [Hx H].
      apply existsb_exists in Hx. destruct Hx as [x [Hx Ex]].
      apply Z.eqb_eq in Ex. subst x.
      destruct IH as [Hc2 Hlen]; [| |exact H|].
      * apply NoDup_remove_id. exact Hlive.
      * intros x Hin. apply in_remove in Hin. destruct Hin as [Hin Hne].
        apply Hincl in Hin. apply In_ids in Hin.
        destruct Hin as [r [Hr1 Hr2]].
        apply In_ids. exists r. split; [|exact Hr2].
        apply filter_In. split; [exact Hr1|].
        unfold users.lacks_id. apply negb_true_iff. apply has_id_false.
        congruence.
      * split; [exact Hc2|].
        destruct Hc as [Hnd _].
        destruct (delete_one user_id _ Hnd)
          as [E|[before [r [rest [E1 [E2 E3]]]]]].
        -- exfalso. apply (delete_absent user_id (users.rows (database w))).
           rewrite E. apply Hincl. exact Hx.
        -- rewrite E3 in Hlen. rewrite E2. rewrite length_app in *.
           simpl. lia.
Qed.

(** C7.  [GET /users] answers 200 with the list of the records of all rows
    of the table, in the table's order.  After a script of N creates and M
    deletes, run from a consistent table, in which every delete targets an
    id that an earlier create of the script returned and no earlier delete
    targeted, the list has N - M records more than the table had rows (N - M
    records from the empty table), and no two records have the same id. *)
Theorem get_users_after_script (reqs : list request) (w0 : world users.table) :
  users.consistent (database w0) ->
  let w := snd (session (unfaulted reqs) w0) in
  targets_created [] reqs (fst (session (unfaulted reqs) w0)) = true ->
  exists records,
    serve None GET_users w = (Response 200 (VList records), w) /\
    records = map dict (users.rows (database w)) /\
    (List.length records + deletes reqs
     = List.length (users.rows (database w0)) + creates reqs)%nat /\
    (users.rows (database w0) = [] ->
     List.length records = (creates reqs - deletes reqs)%nat) /\
    NoDup (map (field "id") records).
Proof.
  intros Hc w Hscript.
  destruct (script_count reqs [] w0 Hc (NoDup_nil _) (incl_nil_l _) Hscript)
    as [Hcw Hlen].
  fold w in Hcw, Hlen.
  exists (map dict (users.rows (database w))).
  split; [apply serve_GET_users|]. split; [reflexivity|].
  rewrite length_map. split; [exact Hlen|].
  split; [intros E; rewrite E in Hlen; simpl in Hlen; lia|].
  apply record_ids_NoDup. exact (proj1 Hcw).
Qed.

Lemma get_users_after_script_witness :
  let script :=
    [POST_users sample.alice; POST_users sample.bob; DELETE_user 1;
     POST_users sample.alice] in
  users.consistent (database sample.fresh) /\
  targets_created [] script
    (fst (session (unfaulted script) sample.fresh)) = true /\
  exists records,
    fst (serve None GET_users (snd (session (unfaulted script) sample.fresh)))
    = Response 200 (VList records) /\
    List.length records = 2%nat.
Proof.
  intros script.
  split; [exact consistent_empty|]. split; [reflexivity|].
  destruct (get_users_after_script script sample.fresh consistent_empty
              eq_refl)
    as [records [H1 [_ [_ [H2 _]]]]].
  exists records. split; [rewrite H1; reflexivity|].
  exact (H2 eq_refl).
Defined.

(** ** Database errors and the pool, for every database *)

Lemma contains_suffix (before s : string) : contains (before ++ s)%string s.
Proof.
  exists before, EmptyString. f_equal.
  induction s as [|c s IH]; simpl; [reflexivity|]. now rewrite <- IH.
Qed.

Section AnyDatabase.

Context {DB : Type}.
Variable pool : Connection DB.
Variable w : world DB.

(** C6.  When the statement of [create_user] raises, the handler catches
    the exception and returns a 500 response whose body carries the error
    text as it is; when the statement of [delete_user] raises, the handler
    catches the exception and raises an HTTP error that becomes a 500
    response whose detail ends with the error text.  When the statement of
    [get_users], [get_user] or [update_user] raises, the driver's
    exception leaves the handler and reaches the framework unhandled. *)
Theorem storage_failures_caught_or_propagated (e : string) (d' : DB) :
  (forall post,
     query pool
       (InsertReturning (name post) (email post) (phone post) (password post))
       (database w) = (Fails e, d') ->
     call (create_user pool post) w =
       (Returned (JSONResponse 500 (VDict [("error", VStr e)])),
        mkWorld (held w) d') /\
     fst (app pool (POST_users post) w) =
       Response 500 (VDict [("error", VStr e)])) /\
  (forall user_id,
     query pool (DeleteById user_id) (database w) = (Fails e, d') ->
     call (delete_user pool user_id) w =
       (Raised (HTTPException 500 ("Failed to delete user: " ++ e)%string),
        mkWorld (held w) d') /\
     fst (app pool (DELETE_user user_id) w) =
       Response 500
         (VDict [("detail", VStr ("Failed to delete user: " ++ e)%string)]) /\
     contains ("Failed to delete user: " ++ e)%string e) /\
  (query pool SelectAll (database w) = (Fails e, d') ->
   call (get_users pool) w = (Raised (DriverError e), mkWorld (held w) d') /\
   fst (app pool GET_users w) = Unhandled (DriverError e)) /\
  (forall user_id,
     query pool (SelectById user_id) (database w) = (Fails e, d') ->
     call (get_user pool user_id) w =
       (Raised (DriverError e), mkWorld (held w) d') /\
     fst (app pool (GET_user user_id) w) = Unhandled (DriverError e)) /\
  (forall user_id post,
     query pool
       (UpdateReturning (name post) (email post) (phone post)
          (password post) user_id)
       (database w) = (Fails e, d') ->
     call (update_user pool user_id post) w =
       (Raised (DriverError e), mkWorld (held w) d') /\
     fst (app pool (PUT_user user_id post) w) = Unhandled (DriverError e)).
Proof.
  repeat split; try apply contains_suffix;
    unfold app, call, handler, declared_status,
      get_users, create_user, get_user, delete_user, update_user,
      dict_of, execute, fetchrow, fetch, async_with_acquire, try_except,
      bind, ret, return_, raise, acquire, release;
    simpl; rewrite H; reflexivity.
Qed.

(** Every handler gives back the connection it took. *)
Lemma call_releases (req : request) :
  held (snd (call (handler pool req) w)) = held w.
Proof.
  destruct req as [|post|user_id|user_id|user_id post];
    unfold call, handler,
      get_users, create_user, get_user, delete_user, update_user,
      dict_of, execute, fetchrow, fetch, async_with_acquire, try_except,
      bind, ret, return_, raise, acquire, release;
    simpl;
    match goal with
    | |- context [query pool ?q ?d] =>
        destruct (query pool q d) as [[[|r rs]|e] d1]
    end; reflexivity.
Qed.

(** C8.  Whatever the database does with the statement, and however the
    handler ends (it returns, it answers an error, an exception leaves
    it), the pool has as many connections lent out after the call as
    before it; a handler called with none lent out ends with none lent
    out.  In particular, when the insert of [create_user] raises, the
    handler returns its 500 response and the connection is back in the
    pool. *)
Theorem handlers_release_connection (req : request) :
  held (snd (call (handler pool req) w)) = held w /\
  held (snd (app pool req w)) = held w /\
  (held w = 0%nat -> held (snd (app pool req w)) = 0%nat) /\
  (forall post e d',
     query pool
       (InsertReturning (name post) (email post) (phone post) (password post))
       (database w) = (Fails e, d') ->
     exists w',
       call (create_user pool post) w =
         (Returned (JSONResponse 500 (VDict [("error", VStr e)])), w') /\
       held w' = held w).
Proof.
  pose proof (call_releases req) as H.
  assert (Happ : held (snd (app pool req w)) = held w).
  { unfold app. destruct (call (handler pool req) w). exact H. }
  split; [exact H|]. split; [exact Happ|]. split; [congruence|].
  intros post e d' Hq. exists (mkWorld (held w) d').
  split; [|reflexivity].
  unfold call, create_user, dict_of, fetchrow, fetch, async_with_acquire,
    try_except, bind, ret, return_, raise, acquire, release.
  simpl. rewrite Hq. reflexivity.
Qed.

End AnyDatabase.

Lemma storage_failures_caught_or_propagated_witness :
  let pool := postgres (Some "connection reset") in
  query pool SelectAll (database sample.idle)
    = (Fails "connection reset", database sample.idle) /\
  fst (app pool GET_users sample.idle)
    = Unhandled (DriverError "connection reset") /\
  fst (app pool (POST_users sample.bob) sample.idle)
    = Response 500 (VDict [("error", VStr "connection reset")]) /\
  fst (app pool (DELETE_user 4) sample.idle)
    = Response 500
        (VDict [("detail", VStr "Failed to delete user: connection reset")]) /\
  fst (app pool (GET_user 4) sample.idle)
    = Unhandled (DriverError "connection reset") /\
  fst (app pool (PUT_user 4 sample.bob) sample.idle)
    = Unhandled (DriverError "connection reset").
Proof.
  intros pool.
  destruct (storage_failures_caught_or_propagated pool sample.idle
              "connection reset" (database sample.idle))
    as [Hcreate [Hdelete [Hlist [Hget Hupdate]]]].
  split; [reflexivity|].
  split; [exact (proj2 (Hlist eq_refl))|].
  split; [exact (proj2 (Hcreate sample.bob eq_refl))|].
  split; [exact (proj1 (proj2 (Hdelete 4 eq_refl)))|].
  split; [exact (proj2 (Hget 4 eq_refl))|].
  exact (proj2 (Hupdate 4 sample.bob eq_refl)).
Defined.

Lemma handlers_release_connection_witness :
  let pool := postgres (Some "connection reset") in
  held sample.idle = 0%nat /\
  held (snd (app pool (POST_users sample.bob) sample.idle)) = 0%nat /\
  exists w',
    call (create_user pool sample.bob) sample.idle =
      (Returned (JSONResponse 500 (VDict [("error", VStr "connection reset")])),
       w') /\
    held w' = 0%nat.
Proof.
  intros pool.
  destruct (handlers_release_connection pool sample.idle
              (POST_users sample.bob))
    as [_ [_ [H0 Hcaught]]].
  split; [reflexivity|]. split; [exact (H0 eq_refl)|].
  destruct (Hcaught sample.bob "connection reset" (database sample.idle)
              eq_refl) as [w' [H1 H2]].
  exists w'. split; [exact H1|exact H2].
Defined.

(** ** One statement per request *)

(** X1.  Whatever database is behind the connection and whatever it does
    with the statement, every handler sends its connection exactly one
    statement, the one of its route with the request's arguments; the
    picture and is_active of a payload are in no statement.  The response
    and the database are those of the same request on the bare connection. *)
Theorem one_statement_per_request {DB : Type} (conn : Connection DB)
  (req : request) (w : world (list statement * DB)) :
  fst (database (snd (app (recording conn) req w)))
    = fst (database w) ++ [statement_of req] /\
  fst (app (recording conn) req w) = fst (app conn req (behind w)) /\
  behind (snd (app (recording conn) req w)) = snd (app conn req (behind w)).
Proof.
  destruct w as [h [log d]].
  destruct req as [|post|user_id|user_id|user_id post];
    unfold behind, app, call, handler, declared_status, statement_of,
      get_users, create_user, get_user, delete_user, update_user,
      dict_of, execute, fetchrow, fetch, async_with_acquire, try_except,
      bind, ret, return_, raise, acquire, release, recording;
    simpl;
    match goal with
    | |- context [query conn ?q d] =>
        destruct (query conn q d) as [[[|r rs]|e] d1]
    end; simpl; auto.
Qed.

(** ** The status codes of each route *)


(** X3.  The [try] of [create_user] covers the insert only.  When the
    insert raises nothing and yields no row, [dict(result)] raises a
    [TypeError] after the connection is back in the pool, and the request
    ends unhandled instead of answering 201 or 500. *)
Theorem create_user_without_row {DB : Type} (conn : Connection DB)
  (post : Post) (w : world DB) (d' : DB) :
  query conn
    (InsertReturning (name post) (email post) (phone post) (password post))
    (database w) = (Rows [], d') ->
  call (create_user conn post) w =
    (Raised (TypeError "'NoneType' object is not iterable"),
     mkWorld (held w) d') /\
  fst (app conn (POST_users post) w) =
    Unhandled (TypeError "'NoneType' object is not iterable").
Proof.
  intros H.
  unfold app, call, handler, declared_status, create_user, dict_of,
    fetchrow, fetch, async_with_acquire, try_except, bind, ret, return_,
    raise, acquire, release.
  simpl. rewrite H. simpl. split; reflexivity.
Qed.

Lemma create_user_without_row_witness :
  query stub.mute
    (InsertReturning "bob" "bob@example.org" None "s3cret")
    (database stub.idle) = (Rows [], tt) /\
  fst (app stub.mute (POST_users sample.bob) stub.idle) =
    Unhandled (TypeError "'NoneType' object is not iterable").
Proof.
  split; [reflexivity|].
  exact (proj2 (create_user_without_row stub.mute sample.bob stub.idle tt
                  eq_refl)).
Defined.

(** ** More on lists of rows *)

Lemma filter_twice (f : users.row -> bool) (l : list users.row) :
  filter f (filter f l) = filter f l.
Proof.
  induction l as [|r l IH]; simpl; [reflexivity|].
  destruct (f r) eqn:E; simpl; [rewrite E, IH|]; auto.
Qed.


(** Under the primary key the selection by the id of a stored row is that
    row alone. *)
Lemma select_unique (l : list users.row) (r : users.row) :
  NoDup (map users.id l) -> In r l ->
  filter (users.has_id (users.id r)) l = [r].
Proof.
  induction l as [|x l IH]; simpl; intros Hnd Hin; [contradiction|].
  apply NoDup_cons_iff in Hnd. destruct Hnd as [Hx Hl].
  destruct Hin as [->|Hin].
  - unfold users.has_id at 1. rewrite Z.eqb_refl. f_equal.
    apply select_absent. exact Hx.
  - destruct (users.has_id (users.id r) x) eqn:E; [|auto].
    apply has_id_true in E. exfalso. apply Hx. rewrite E.
    apply in_map. exact Hin.
Qed.

Lemma has_id_set_user (i k : Z) (p : Post) (r : users.row) :
  users.has_id k (set_user i p r) = users.has_id k r.
Proof. unfold users.has_id. now rewrite set_user_id. Qed.


Lemma set_user_twice (i : Z) (p q : Post) (r : users.row) :
  set_user i q (set_user i p r) = set_user i q r.
Proof.
  unfold set_user, users.assign, users.has_id.
  destruct r as [k n e ph pw]. simpl.
  destruct (k =? i) eqn:E; simpl; rewrite E; reflexivity.
Qed.

Lemma filter_map_set_user (i : Z) (p : Post) (f : users.row -> bool)
  (l : list users.row) :
  (forall r, f (set_user i p r) = f r) ->
  filter f (map (set_user i p) l) = map (set_user i p) (filter f l).
Proof.
  intros Hf. induction l as [|r l IH]; simpl; [reflexivity|].
  rewrite Hf, IH. destruct (f r); reflexivity.
Qed.

Section TwoUsers.

Variables (i j : Z) (p q : Post).

Hypothesis distinct : i <> j.

Lemma set_user_other (r : users.row) :
  users.has_id j r = true -> set_user i p r = r.
Proof.
  intros H. apply has_id_true in H. rewrite set_user_eq.
  destruct (users.has_id i r) eqn:E; [|reflexivity].
  apply has_id_true in E. congruence.
Qed.

Lemma select_after_set_user (l : list users.row) :
  filter (users.has_id j) (map (set_user i p) l) = filter (users.has_id j) l.
Proof.
  rewrite filter_map_set_user by (intros; apply has_id_set_user).
  induction l as [|r l IH]; simpl; [reflexivity|].
  destruct (users.has_id j r) eqn:E; simpl; [|exact IH].
  now rewrite IH, set_user_other.
Qed.

Lemma select_after_delete (l : list users.row) :
  filter (users.has_id j) (filter (users.lacks_id i) l)
  = filter (users.has_id j) l.
Proof.
  induction l as [|r l IH]; simpl; [reflexivity|].
  destruct (users.lacks_id i r) eqn:E; simpl; rewrite IH; [reflexivity|].
  destruct (users.has_id j r) eqn:Ej; [|reflexivity].
  apply has_id_true in Ej. unfold users.lacks_id in E.
  apply negb_false_iff, has_id_true in E. congruence.
Qed.


End TwoUsers.

(** ** The list and the single read agree *)

(** X4.  While no two rows share an id, [GET /users] and [GET /users/{id}]
    tell the same story: every record a single read returns is in the list,
    and every record of the list carries an id under which the single read
    returns exactly that record. *)
Theorem get_user_agrees_with_get_users (w : world users.table) :
  NoDup (users.ids (database w)) ->
  exists records,
    serve None GET_users w = (Response 200 (VList records), w) /\
    (forall user_id body,
       fst (serve None (GET_user user_id) w) = Response 200 body ->
       In body records) /\
    (forall record,
       In record records ->
       exists user_id,
         field "id" record = Some (VInt user_id) /\
         serve None (GET_user user_id) w = (Response 200 record, w)).
Proof.
  intros Hnd. exists (map dict (users.rows (database w))).
  split; [apply serve_GET_users|]. split.
  - intros user_id body. rewrite serve_GET_user. simpl.
    destruct (filter _ _) as [|r rest] eqn:E; [discriminate|].
    intros H. injection H as <-. apply in_map.
    assert (Hin : In r (filter (users.has_id user_id)
                          (users.rows (database w))))
      by (rewrite E; left; reflexivity).
    apply filter_In in Hin. tauto.
  - intros record Hin. apply in_map_iff in Hin.
    destruct Hin as [r [<- Hr]]. exists (users.id r).
    split; [reflexivity|].
    rewrite serve_GET_user. rewrite (select_unique _ _ Hnd Hr). reflexivity.
Qed.

Lemma sample_consistent : users.consistent (database sample.idle).
Proof.
  split; simpl.
  - repeat constructor; simpl; intuition discriminate.
  - repeat constructor; simpl; lia.
Qed.

Lemma get_user_agrees_with_get_users_witness :
  NoDup (users.ids (database sample.idle)) /\
  exists user_id,
    field "id" (dict sample.carol_row) = Some (VInt user_id) /\
    serve None (GET_user user_id) sample.idle
      = (Response 200 (dict sample.carol_row), sample.idle).
Proof.
  pose proof (proj1 sample_consistent) as Hnd.
  split; [exact Hnd|].
  destruct (get_user_agrees_with_get_users sample.idle Hnd)
    as [records [Hlist [_ H]]].
  apply H. rewrite serve_GET_users in Hlist. injection Hlist as <-.
  simpl. right. left. reflexivity.
Defined.

(** ** Repeating and reordering the writes *)

(** X5.  [DELETE /users/{id}] is idempotent: a second delete of the same id
    gets the same response as the first and leaves the table as the first
    left it. *)
Theorem delete_user_idempotent (user_id : Z) (w : world users.table) :
  serve None (DELETE_user user_id) (snd (serve None (DELETE_user user_id) w))
  = serve None (DELETE_user user_id) w.
Proof.
  rewrite !serve_DELETE_user. simpl. rewrite filter_twice. reflexivity.
Qed.

(** X6.  [PUT /users/{id}] replaces, it does not merge: after an update of
    an id, a second update of the same id gets the response, and leaves the
    table, that it would have got and left without the first.  With the same
    payload twice, the update is idempotent. *)
Theorem update_user_last_write_wins (user_id : Z) (p q : Post)
  (w : world users.table) :
  serve None (PUT_user user_id q) (snd (serve None (PUT_user user_id p) w))
  = serve None (PUT_user user_id q) w /\
  serve None (PUT_user user_id p) (snd (serve None (PUT_user user_id p) w))
  = serve None (PUT_user user_id p) w.
Proof.
  assert (H : forall a b,
    serve None (PUT_user user_id b) (snd (serve None (PUT_user user_id a) w))
    = serve None (PUT_user user_id b) w).
  { intros a b. rewrite !serve_PUT_user. simpl. rewrite map_map.
    rewrite (map_ext _ _ (set_user_twice user_id a b)). reflexivity. }
  split; apply H.
Qed.



(** ** A create undone by a delete *)

(** X8.  On a consistent table, a create followed by a delete of the id it
    returned leaves the rows of the table, and so the list [GET /users]
    answers, exactly as they were before the create; no connection stays
    lent out. *)
Theorem create_then_delete_restores_rows (post : Post)
  (w : world users.table) :
  users.consistent (database w) ->
  exists created i w1 w2,
    serve None (POST_users post) w = (Response 201 created, w1) /\
    created_id (Response 201 created) = Some i /\
    serve None (DELETE_user i) w1 =
      (Response 204 (VDict [("message", VStr "User successfully deleted")]),
       w2) /\
    users.rows (database w2) = users.rows (database w) /\
    fst (serve None GET_users w2) = fst (serve None GET_users w) /\
    held w2 = held w.
Proof.
  intros Hc.
  exists (dict (inserted (database w) post)), (users.seq (database w) + 1).
  eexists. eexists.
  split; [apply serve_POST_users_ok; exact Hc|].
  split; [reflexivity|].
  split; [rewrite serve_DELETE_user; reflexivity|].
  assert (E : filter (users.lacks_id (users.seq (database w) + 1))
                (users.rows (database w) ++ [inserted (database w) post])
              = users.rows (database w)).
  { rewrite filter_app, delete_none by (apply consistent_fresh; exact Hc).
    simpl. unfold users.lacks_id, users.has_id. simpl.
    rewrite Z.eqb_refl. simpl. apply app_nil_r. }
  rewrite !serve_GET_users. simpl. rewrite E. auto.
Qed.

Lemma create_then_delete_restores_rows_witness :
  users.consistent (database sample.idle) /\
  exists created i w1 w2,
    serve None (POST_users sample.bob) sample.idle
      = (Response 201 created, w1) /\
    created_id (Response 201 created) = Some i /\
    fst (serve None (DELETE_user i) w1)
      = Response 204 (VDict [("message", VStr "User successfully deleted")]) /\
    users.rows (database w2) = [sample.alice_row; sample.carol_row].
Proof.
  split; [exact sample_consistent|].
  destruct (create_then_delete_restores_rows sample.bob sample.idle
              sample_consistent)
    as [created [i [w1 [w2 [H1 [H2 [H3 [H4 _]]]]]]]].
  exists created, i, w1, w2.
  split; [exact H1|]. split; [exact H2|].
  split; [rewrite H3; reflexivity|exact H4].
Defined.

(** ** What every run of requests keeps *)

Lemma serve_held (fault : option string) (req : request)
  (w : world users.table) :
  held (snd (serve fault req w)) = held w.
Proof.
  unfold serve, app.
  pose proof (call_releases (postgres fault) w req) as H.
  destruct (call (handler (postgres fault) req) w). exact H.
Qed.

(** X9.  Whatever requests arrive and whichever statements the database
    fails, a run that starts on a consistent table ends on a consistent
    table, with every request answered and as many connections lent out as
    at the start; the list [GET /users] then answers has no two records
    with the same id. *)
Theorem session_keeps_table_consistent
  (reqs : list (option string * request)) (w : world users.table) :
  users.consistent (database w) ->
  users.consistent (database (snd (session reqs w))) /\
  held (snd (session reqs w)) = held w /\
  List.length (fst (session reqs w)) = List.length reqs /\
  exists records,
    fst (serve None GET_users (snd (session reqs w)))
      = Response 200 (VList records) /\
    NoDup (map (field "id") records).
Proof.
  intros Hc.
  assert (Hrun : held (snd (session reqs w)) = held w /\
                 List.length (fst (session reqs w)) = List.length reqs).
  { clear Hc. revert w.
    induction reqs as [|[fault req] reqs IH]; intros w; simpl; [auto|].
    pose proof (serve_held fault req w) as Hh.
    destruct (serve fault req w) as [resp w1]. simpl in Hh.
    destruct (IH w1) as [H1 H2].
    destruct (session reqs w1) as [resps w2]. simpl in *.
    split; congruence. }
  destruct (session_consistent reqs w Hc) as [Hc' _].
  split; [exact Hc'|]. split; [tauto|]. split; [tauto|].
  exists (map dict (users.rows (database (snd (session reqs w))))).
  rewrite serve_GET_users. split; [reflexivity|].
  apply record_ids_NoDup. exact (proj1 Hc').
Qed.

Lemma session_keeps_table_consistent_witness :
  let reqs :=
    [(None, POST_users sample.bob); (Some "timeout", POST_users sample.alice);
     (None, PUT_user 1 sample.bob); (Some "timeout", DELETE_user 4);
     (None, DELETE_user 9)] in
  users.consistent (database sample.idle) /\
  users.consistent (database (snd (session reqs sample.idle))) /\
  held (snd (session reqs sample.idle)) = 0%nat.
Proof.
  intros reqs.
  destruct (session_keeps_table_consistent reqs sample.idle sample_consistent)
    as [H1 [H2 _]].
  split; [exact sample_consistent|]. split; [exact H1|exact H2].
Defined.

Lemma sorted_ids_NoDup (l : list Z) : StronglySorted Z.lt l -> NoDup l.
Proof.
  induction 1 as [|i l _ IH Hall]; constructor; [|exact IH].
  intros Hin. rewrite Forall_forall in Hall. specialize (Hall i Hin). lia.
Qed.

Lemma created_ids_bounds (reqs : list (option string * request)) :
  forall w : world users.table,
    users.consistent (database w) ->
    StronglySorted Z.lt (created_ids (fst (session reqs w))) /\
    Forall
      (fun i =>
         users.seq (database w) < i
         <= users.seq (database (snd (session reqs w))))
      (created_ids (fst (session reqs w))).
Proof.
  induction reqs as [|[fault req] reqs IH]; intros w Hc; simpl.
  - split; constructor.
  - destruct (serve_consistent fault req w Hc) as [Hc1 [Hle1 Hid1]].
    destruct (serve fault req w) as [resp w1]. simpl in *.
    destruct (IH w1 Hc1) as [Hs Hb].
    destruct (session_consistent reqs w1 Hc1) as [_ [Hle2 _]].
    destruct (session reqs w1) as [resps w2]. simpl in *.
    assert (Hrest : Forall
              (fun i => users.seq (database w) < i <= users.seq (database w2))
              (created_ids resps)).
    { eapply Forall_impl; [|exact Hb]. simpl. intros; lia. }
    destruct (created_id resp) as [i|]; [|split; assumption].
    specialize (Hid1 i eq_refl). split.
    + constructor; [exact Hs|].
      eapply Forall_impl; [|exact Hb]. simpl. intros; lia.
    + constructor; [lia|exact Hrest].
Qed.

(** X10.  Along any run of requests from a consistent table, whichever
    statements the database fails, the ids that the 201 responses carry
    grow strictly from one create to the next and are all above the value
    the sequence had at the start; so no two creates of a run, however far
    apart and whatever was deleted in between, return the same id. *)
Theorem created_ids_increase (reqs : list (option string * request))
  (w : world users.table) :
  users.consistent (database w) ->
  StronglySorted Z.lt (created_ids (fst (session reqs w))) /\
  Forall (fun i => users.seq (database w) < i)
    (created_ids (fst (session reqs w))) /\
  NoDup (created_ids (fst (session reqs w))).
Proof.
  intros Hc. destruct (created_ids_bounds reqs w Hc) as [Hs Hb].
  split; [exact Hs|]. split.
  - eapply Forall_impl; [|exact Hb]. simpl. intros; lia.
  - apply sorted_ids_NoDup. exact Hs.
Qed.

Lemma created_ids_increase_witness :
  let reqs :=
    [(None, POST_users sample.bob); (None, DELETE_user 5);
     (Some "timeout", POST_users sample.alice); (None, POST_users sample.bob)]
  in
  users.consistent (database sample.idle) /\
  created_ids (fst (session reqs sample.idle)) = [5; 6] /\
  NoDup (created_ids (fst (session reqs sample.idle))).
Proof.
  intros reqs.
  split; [exact sample_consistent|]. split; [reflexivity|].
  exact (proj2 (proj2 (created_ids_increase reqs sample.idle
                         sample_consistent))).
Defined.

(** ** Writes seen from another user's read *)

(** X11.  A write to one user does not show in the read of another: for
    two different ids, [GET /users/{j}] answers the same before and after a
    delete of [i] and before and after an update of [i]; and on a consistent
    table the read of a stored user answers the same before and after a
    create. *)
Theorem read_unaffected_by_other_writes (i j : Z) (p : Post)
  (w : world users.table) :
  i <> j ->
  fst (serve None (GET_user j) (snd (serve None (DELETE_user i) w)))
    = fst (serve None (GET_user j) w) /\
  fst (serve None (GET_user j) (snd (serve None (PUT_user i p) w)))
    = fst (serve None (GET_user j) w) /\
  (users.consistent (database w) ->
   In j (users.ids (database w)) ->
   fst (serve None (GET_user j) (snd (serve None (POST_users p) w)))
     = fst (serve None (GET_user j) w)).
Proof.
  intros Hij.
  rewrite serve_DELETE_user, serve_PUT_user, !serve_GET_user. simpl.
  rewrite (select_after_delete i j Hij), (select_after_set_user i j p Hij).
  split; [reflexivity|]. split; [reflexivity|].
  intros Hc Hin. rewrite serve_POST_users_ok by exact Hc.
  simpl. rewrite filter_app. simpl.
  assert (E : users.has_id j (inserted (database w) p) = false).
  { apply has_id_false. simpl. intros <-.
    apply (consistent_fresh _ Hc). exact Hin. }
  rewrite E, app_nil_r. reflexivity.
Qed.

Lemma read_unaffected_by_other_writes_witness :
  4 <> 1 /\
  users.consistent (database sample.idle) /\
  In 1 (users.ids (database sample.idle)) /\
  fst (serve None (GET_user 1)
         (snd (serve None (PUT_user 4 sample.bob) sample.idle)))
    = Response 200 (dict sample.alice_row) /\
  fst (serve None (GET_user 1)
         (snd (serve None (POST_users sample.bob) sample.idle)))
    = Response 200 (dict sample.alice_row).
Proof.
  assert (Hne : 4 <> 1) by lia.
  assert (Hin : In 1 (users.ids (database sample.idle)))
    by (simpl; left; reflexivity).
  destruct (read_unaffected_by_other_writes 4 1 sample.bob sample.idle Hne)
    as [_ [Hput Hpost]].
  split; [exact Hne|]. split; [exact sample_consistent|].
  split; [exact Hin|]. split.
  - rewrite Hput. reflexivity.
  - rewrite (Hpost sample_consistent Hin). reflexivity.
Defined.
